(** * The datapath loader's compile step (package loader)

    A shallow embedding of the compile driver found in
    [src/pkg/maps/tunnel/zz_generated.deepcopy.go] (the part after the
    document separator, package [loader]): the one-time BPF CPU probe
    [GetBPFCPU], the clang invocation [compile], and the sessions
    [compileDatapath], [compileNetwork], [compileOverlay],
    [CompileWithOptions], [Compile] and [compileTemplate].

    The Go code talks to the outside world (kernel probes, the file
    system, a child process, the logger).  The embedding threads an explicit
    [State] through every function; the outside world answers through an
    [Env] of oracles that see the whole history of earlier interactions, so
    an answer may change from one call to the next. *)

From Stdlib Require Import ZArith String Ascii List Strings.Byte DecimalString Lia.
From stdpp Require Import base strings list gmap.

Import ListNotations.
Local Open Scope string_scope.
Local Open Scope Z_scope.
Local Open Scope list_scope.

(** ** Go library pieces the loader relies on *)

(** [error] values.  [context_Canceled] is the sentinel [context.Canceled];
    [ErrLeaf] is any other error with no [Unwrap]; [ErrWrap prefix e] is
    [fmt.Errorf(prefix + "%w", e)]. *)
Inductive error : Type :=
| context_Canceled : error
| ErrLeaf (msg : string) : error
| ErrWrap (prefix : string) (inner : error) : error.

Fixpoint error_Error (e : error) : string :=
  match e with
  | context_Canceled => "context canceled"
  | ErrLeaf msg => msg
  | ErrWrap prefix inner => prefix +:+ error_Error inner
  end.

Fixpoint error_eqb (a b : error) : bool :=
  match a, b with
  | context_Canceled, context_Canceled => true
  | ErrLeaf m, ErrLeaf n => String.eqb m n
  | ErrWrap p x, ErrWrap q y => String.eqb p q && error_eqb x y
  | _, _ => false
  end.

(** [errors.Is]: compare, then follow the [Unwrap] chain. *)
Fixpoint errors_Is (err target : error) : bool :=
  error_eqb err target ||
  match err with
  | ErrWrap _ inner => errors_Is inner target
  | _ => false
  end.

(** [fmt.Sprintf("%d", n)]. *)
Definition fmt_d (n : Z) : string := NilZero.string_of_int (Z.to_int n).

Module path.

(** The components of a path between its slashes. *)
Fixpoint components (s : string) : list string :=
  match s with
  | EmptyString => [EmptyString]
  | String c rest =>
      if Ascii.eqb c "/" then EmptyString :: components rest
      else match components rest with
           | x :: xs => String c x :: xs
           | [] => [String c EmptyString]
           end
  end.

Definition rooted (s : string) : bool :=
  match s with
  | String c _ => Ascii.eqb c "/"
  | EmptyString => false
  end.

(** One component of [Clean]'s loop; [out] is the output so far, last
    component first.  Empty components and "." are skipped, ".." drops
    the last name, stays put at the root, and is kept in front of a
    relative path. *)
Definition clean_step (isRooted : bool) (out : list string) (c : string)
  : list string :=
  if String.eqb c "" || String.eqb c "." then out
  else if String.eqb c ".." then
    match out with
    | top :: below => if String.eqb top ".." then c :: out else below
    | [] => if isRooted then [] else [c]
    end
  else c :: out.

Fixpoint join_slash (l : list string) : string :=
  match l with
  | [] => ""
  | [x] => x
  | x :: xs => x +:+ "/" +:+ join_slash xs
  end.

(** [path.Clean]. *)
Definition Clean (p : string) : string :=
  let out := fold_left (clean_step (rooted p)) (components p) [] in
  match out with
  | [] => if rooted p then "/" else "."
  | _ => (if rooted p then "/" else "") +:+ join_slash (rev out)
  end.

Fixpoint join_buf (buf : string) (elem : list string) : string :=
  match elem with
  | [] => buf
  | e :: es =>
      if negb (String.eqb buf "") || negb (String.eqb e "")
      then join_buf ((if String.eqb buf "" then buf else buf +:+ "/") +:+ e) es
      else join_buf buf es
  end.

(** [path.Join]: the non-empty prefix-skipped elements joined by slashes,
    then cleaned; the empty string when every element is empty. *)
Definition Join (elem : list string) : string :=
  if forallb (fun e => String.eqb e "") elem then ""
  else Clean (join_buf "" elem).

End path.

(** [io.LimitReader(r, n)] followed by reading to the end: the first [n]
    bytes of the stream. *)
Fixpoint io_LimitReader (r : list byte) (n : N) : list byte :=
  match r with
  | [] => []
  | b :: rest => if N.eqb n 0 then [] else b :: io_LimitReader rest (N.pred n)
  end.

(** [bufio.MaxScanTokenSize]. *)
Definition MaxScanTokenSize : N := 65536.

Definition dropCR (line : list byte) : list byte :=
  match rev line with
  | x0d :: front => rev front
  | _ => line
  end.

(** The tokens a [bufio.Scanner] with the default [ScanLines] split yields:
    [cur] is the unterminated line read so far.  A line ends at a newline
    (or at the end of the input when it is not empty) and loses one
    trailing carriage return; a line that fills the scanner's buffer before
    its newline stops the scan. *)
Fixpoint scan_lines (cur data : list byte) : list (list byte) :=
  match data with
  | [] => match cur with [] => [] | _ => [dropCR cur] end
  | b :: rest =>
      if Byte.eqb b x0a then dropCR cur :: scan_lines [] rest
      else if N.leb MaxScanTokenSize (N.of_nat (S (length cur))) then []
      else scan_lines (cur ++ [b]) rest
  end.

Definition Scanner_lines (r : list byte) : list string :=
  map string_of_list_byte (scan_lines [] r).

(** ** Constants and data of the loader *)

Inductive OutputType : Type := outputObject | outputAssembly | outputSource.

Definition OutputType_string (t : OutputType) : string :=
  match t with
  | outputObject => "obj"
  | outputAssembly => "asm"
  | outputSource => "c"
  end.

Definition compiler : string := "clang".

Definition endpointPrefix : string := "bpf_lxc".
Definition endpointProg : string := endpointPrefix +:+ "." +:+ OutputType_string outputSource.
Definition endpointObj : string := endpointPrefix +:+ ".o".
Definition endpointObjDebug : string := endpointPrefix +:+ ".dbg.o".
Definition endpointAsm : string := endpointPrefix +:+ "." +:+ OutputType_string outputAssembly.

Definition hostEndpointPrefix : string := "bpf_host".
Definition hostEndpointProg : string := hostEndpointPrefix +:+ "." +:+ OutputType_string outputSource.
Definition hostEndpointObj : string := hostEndpointPrefix +:+ ".o".
Definition hostEndpointObjDebug : string := hostEndpointPrefix +:+ ".dbg.o".
Definition hostEndpointAsm : string := hostEndpointPrefix +:+ "." +:+ OutputType_string outputAssembly.

Definition networkPrefix : string := "bpf_network".
Definition networkProg : string := networkPrefix +:+ "." +:+ OutputType_string outputSource.
Definition networkObj : string := networkPrefix +:+ ".o".

Definition xdpPrefix : string := "bpf_xdp".
Definition xdpProg : string := xdpPrefix +:+ "." +:+ OutputType_string outputSource.
Definition xdpObj : string := xdpPrefix +:+ ".o".

Definition overlayPrefix : string := "bpf_overlay".
Definition overlayProg : string := overlayPrefix +:+ "." +:+ OutputType_string outputSource.
Definition overlayObj : string := overlayPrefix +:+ ".o".

(** [progInfo] describes a program to be compiled with the expected output
    format. *)
Record progInfo : Type := {
  Source : string;
  Output : string;
  progOutputType : OutputType;
  Options : list string
}.

(** [directoryInfo] includes relevant directories for compilation. *)
Record directoryInfo : Type := {
  Library : string;
  Runtime : string;
  dirState : string;
  dirOutput : string
}.

Definition debugProgs : list progInfo := [
  {| Source := endpointProg; Output := endpointObjDebug;
     progOutputType := outputObject; Options := [] |};
  {| Source := endpointProg; Output := endpointAsm;
     progOutputType := outputAssembly; Options := [] |};
  {| Source := endpointProg; Output := endpointProg;
     progOutputType := outputSource; Options := [] |} ].

Definition debugHostProgs : list progInfo := [
  {| Source := hostEndpointProg; Output := hostEndpointObjDebug;
     progOutputType := outputObject; Options := [] |};
  {| Source := hostEndpointProg; Output := hostEndpointAsm;
     progOutputType := outputAssembly; Options := [] |};
  {| Source := hostEndpointProg; Output := hostEndpointProg;
     progOutputType := outputSource; Options := [] |} ].

Definition epProg : progInfo :=
  {| Source := endpointProg; Output := endpointObj;
     progOutputType := outputObject; Options := [] |}.

Definition hostEpProg : progInfo :=
  {| Source := hostEndpointProg; Output := hostEndpointObj;
     progOutputType := outputObject; Options := [] |}.

Definition networkTcProg : progInfo :=
  {| Source := networkProg; Output := networkObj;
     progOutputType := outputObject; Options := [] |}.

(** [standardCFlags]; the number of possible CPUs comes from
    [common.GetNumPossibleCPUs]. *)
Definition standardCFlags (numPossibleCPUs : Z) : list string :=
  [ "-O2"; "--target=bpf"; "-std=gnu89";
    "-nostdinc"; "-D__NR_CPUS__=" +:+ fmt_d numPossibleCPUs;
    "-Wall"; "-Wextra"; "-Werror"; "-Wshadow";
    "-Wno-address-of-packed-member";
    "-Wno-unknown-warning-option";
    "-Wno-gnu-variable-sized-type-not-at-end";
    "-Wdeclaration-after-statement";
    "-Wimplicit-int-conversion";
    "-Wenum-conversion" ].

(** ** The outside world *)

(** The part of [option.Config] the loader reads. *)
Record Config : Type := {
  DryMode : bool;
  Debug : bool;
  BpfDir : string;
  StateDir : string
}.

Inductive ebpf_ProgramType : Type := ebpf_SchedCLS | ebpf_XDP.
Inductive asm_BuiltinFunc : Type := asm_FnRedirectNeigh | asm_FnRedirectPeer.

(** The three queries of package [probes]; each answers [nil] (here [None])
    when the kernel has the feature and an error otherwise. *)
Inductive Probe : Type :=
| HaveV3ISA
| HaveProgramHelper (pt : ebpf_ProgramType) (fn : asm_BuiltinFunc)
| HaveV2ISA.

(** What is left of an [exec.Cmd] after [Run].  Either [Start] failed and
    no process exists ([cmd.Process] and [cmd.ProcessState] stay nil), or
    the process ran and was waited for: then [cmd.Process] holds its pid,
    [cmd.ProcessState] is set, [usage] is the [Maxrss] of
    [ProcessState.SysUsage()] when that is a [*syscall.Rusage], and [err]
    is what [Run] returned (nil for exit status 0). *)
Inductive RunResult : Type :=
| NotStarted (err : error)
| Exited (pid : Z) (usage : option Z) (err : option error)
         (stdout stderr : list byte).

Definition run_err (r : RunResult) : option error :=
  match r with
  | NotStarted err => Some err
  | Exited _ _ err _ _ => err
  end.

Definition run_stdout (r : RunResult) : list byte :=
  match r with
  | NotStarted _ => []
  | Exited _ _ _ out _ => out
  end.

Definition run_stderr (r : RunResult) : list byte :=
  match r with
  | NotStarted _ => []
  | Exited _ _ _ _ err => err
  end.

(** [cmd.Process]: [None] for the nil pointer, else the pid. *)
Definition run_Process (r : RunResult) : option Z :=
  match r with
  | NotStarted _ => None
  | Exited pid _ _ _ _ => Some pid
  end.

(** [cmd.ProcessState]: [None] for the nil pointer, else the outcome of
    asserting [SysUsage()] to be a [*syscall.Rusage]. *)
Definition run_ProcessState (r : RunResult) : option (option Z) :=
  match r with
  | NotStarted _ => None
  | Exited _ usage _ _ _ => Some usage
  end.

(** Interactions with the outside world, with the answer received; a
    process is recorded with the file its standard output is wired to. *)
Inductive Event : Type :=
| EvProbe (p : Probe) (r : option error)
| EvCombinedOutput (name : string) (args : list string) (out : list byte) (r : option error)
| EvCreate (name : string) (r : option error)
| EvRun (name : string) (args : list string) (stdout : string) (r : RunResult).

(** The environment of one process: configuration and test seam, and the
    answers of the kernel probes, of [os.Create] and of the child processes,
    each a function of the events so far. *)
Record Env : Type := {
  option_Config : Config;
  testIncludes : list string;
  numPossibleCPUs : Z;
  probes : Probe -> list Event -> option error;
  os_Create : string -> list Event -> option error;
  cmd_Run : string -> list string -> list Event -> RunResult;
  cmd_CombinedOutput : string -> list string -> list Event -> list byte * option error
}.

Inductive Level : Type := ErrorLevel | WarnLevel | InfoLevel | DebugLevel.

Inductive FieldValue : Type :=
| FStr (s : string)
| FStrs (l : list string)
| FInt (n : Z)
| FBool (b : bool)
| FErr (e : error)
| FProg (p : progInfo).

Record LogEntry : Type := {
  level : Level;
  fields : list (string * FieldValue);
  message : string
}.

(** The state of the process: the [sync.Once] and the variable it guards,
    the events so far, the log written so far and the files on disk. *)
Record State : Type := {
  probeCPUOnce : bool;
  nameBPFCPU : string;
  events : list Event;
  logs : list LogEntry;
  files : gmap string (list byte)
}.

(** The state a process starts in: [nameBPFCPU = "v1"], the default
    fallback. *)
Definition initState (fs : gmap string (list byte)) : State :=
  {| probeCPUOnce := false; nameBPFCPU := "v1"; events := []; logs := [];
     files := fs |}.

Definition set_nameBPFCPU (v : string) (st : State) : State :=
  {| probeCPUOnce := probeCPUOnce st; nameBPFCPU := v; events := events st;
     logs := logs st; files := files st |}.

Definition set_probeCPUOnce (st : State) : State :=
  {| probeCPUOnce := true; nameBPFCPU := nameBPFCPU st; events := events st;
     logs := logs st; files := files st |}.

Definition add_event (e : Event) (st : State) : State :=
  {| probeCPUOnce := probeCPUOnce st; nameBPFCPU := nameBPFCPU st;
     events := events st ++ [e]; logs := logs st; files := files st |}.

Definition add_log (l : LogEntry) (st : State) : State :=
  {| probeCPUOnce := probeCPUOnce st; nameBPFCPU := nameBPFCPU st;
     events := events st; logs := logs st ++ [l]; files := files st |}.

Definition write_file (name : string) (content : list byte) (st : State) : State :=
  {| probeCPUOnce := probeCPUOnce st; nameBPFCPU := nameBPFCPU st;
     events := events st; logs := logs st;
     files := <[name := content]> (files st) |}.

(** A call either returns or panics (a nil pointer dereference). *)
Inductive Res (A : Type) : Type :=
| Returned (a : A)
| Panicked.
Arguments Returned {A} a.
Arguments Panicked {A}.

Definition M (A : Type) : Type := State -> Res A * State.

Definition ret {A} (a : A) : M A := fun st => (Returned a, st).

Definition bind {A B} (m : M A) (f : A -> M B) : M B :=
  fun st => match m st with
            | (Returned a, st') => f a st'
            | (Panicked, st') => (Panicked, st')
            end.

Definition panic {A} : M A := fun st => (Panicked, st).

Definition modify (f : State -> State) : M unit := fun st => (Returned tt, f st).

Notation "'let*' x ':=' c1 'in' c2" := (bind c1 (fun x => c2))
  (at level 10, x pattern, c1 at level 100, c2 at level 200).
Notation "'run' c1 'then' c2" := (bind c1 (fun _ => c2))
  (at level 10, c1 at level 100, c2 at level 200).

Definition log_entry (lvl : Level) (flds : list (string * FieldValue)) (msg : string) : M unit :=
  modify (add_log {| level := lvl; fields := flds; message := msg |}).

Fixpoint log_lines (lvl : Level) (lines : list string) : M unit :=
  match lines with
  | [] => ret tt
  | l :: rest => run log_entry lvl [] l then log_lines lvl rest
  end.

(** Field names of package [logfields]. *)
Definition logfields_Debug : string := "debug".
Definition logfields_Params : string := "params".
Definition logrus_ErrorKey : string := "error".

(** ** The loader *)

Section Loader.

Variable env : Env.

(** Calls into the outside world: ask the oracle at the current history
    and record the call with its answer. *)
Definition call_probe (p : Probe) : M (option error) :=
  fun st =>
    let r := probes env p (events st) in
    (Returned r, add_event (EvProbe p r) st).

(** [cmd.CombinedOutput] of package [exec]; what that package logs on its
    own is not part of the loader. *)
Definition call_CombinedOutput (name : string) (args : list string)
  : M (list byte * option error) :=
  fun st =>
    let r := cmd_CombinedOutput env name args (events st) in
    (Returned r, add_event (EvCombinedOutput name args (fst r) (snd r)) st).

(** [os.Create]: on success the file exists and is empty. *)
Definition call_Create (name : string) : M (option error) :=
  fun st =>
    let r := os_Create env name (events st) in
    let st' := add_event (EvCreate name r) st in
    (Returned r, match r with
                 | None => write_file name [] st'
                 | Some _ => st'
                 end).

(** [cmd.Run] with [cmd.Stdout] set to the open file [stdout]: what the
    child writes to its standard output lands in that file. *)
Definition call_Run (name : string) (args : list string) (stdout : string)
  : M RunResult :=
  fun st =>
    let r := cmd_Run env name args (events st) in
    (Returned r, write_file stdout (run_stdout r) (add_event (EvRun name args stdout r) st)).

(** The second half of the function handed to [probeCPUOnce.Do]: enable
    v2 on all kernels that support it. *)
Definition probeV2 : M unit :=
  let* v2 := call_probe HaveV2ISA in
  match v2 with
  | None => modify (set_nameBPFCPU "v2")
  | Some _ => ret tt
  end.

(** The function handed to [probeCPUOnce.Do]. *)
Definition probeCPU : M unit :=
  if negb (DryMode (option_Config env)) then
    let* v3 := call_probe HaveV3ISA in
    match v3 with
    | None =>
        let* helper := call_probe (HaveProgramHelper ebpf_SchedCLS asm_FnRedirectNeigh) in
        match helper with
        | None => modify (set_nameBPFCPU "v3")
        | Some _ => probeV2
        end
    | Some _ => probeV2
    end
  else ret tt.

(** [sync.Once.Do]. *)
Definition Once_Do (f : M unit) : M unit :=
  fun st =>
    if probeCPUOnce st then (Returned tt, st)
    else match f st with
         | (r, st') => (r, set_probeCPUOnce st')
         end.

(** [GetBPFCPU] returns the BPF CPU for this host. *)
Definition GetBPFCPU : M string :=
  run Once_Do probeCPU then
  fun st => (Returned (nameBPFCPU st), st).

Definition pidFromProcess (proc : option Z) : string :=
  match proc with
  | Some pid => fmt_d pid
  | None => "not-started"
  end.

(** The [switch prog.OutputType] of [compile], with its fallthrough from
    assembly to object. *)
Definition outputTypeArgs (t : OutputType) : list string :=
  match t with
  | outputSource => ["-E"]
  | outputAssembly => ["-S"; "-g"]
  | outputObject => ["-g"]
  end.

(** The arguments [compile] builds, given what [GetBPFCPU] returned. *)
Definition compileArgs (cpu : string) (prog : progInfo) (dir : directoryInfo)
  : list string :=
  testIncludes env
    ++ [ "-I" +:+ path.Join [Runtime dir; "globals"];
         "-I" +:+ dirState dir;
         "-I" +:+ Library dir;
         "-I" +:+ path.Join [Library dir; "include"] ]
    ++ outputTypeArgs (progOutputType prog)
    ++ standardCFlags (numPossibleCPUs env)
    ++ [ "-mcpu=" +:+ cpu ]
    ++ Options prog
    ++ [ "-c"; path.Join [Library dir; Source prog]; "-o"; "-" ].

(** The file [compile] creates: [path.Join(dir.Output, prog.Output)]. *)
Definition outputName (prog : progInfo) (dir : directoryInfo) : string :=
  path.Join [dirOutput dir; Output prog].

(** The standard-error buffer of [compile]: a [bytes.Buffer] that takes
    everything the child writes. *)
Definition compilerStderr (r : RunResult) : list byte := run_stderr r.

(** The lines [compile] logs from the buffer on failure. *)
Definition stderrLines (r : RunResult) : list string :=
  Scanner_lines (io_LimitReader (compilerStderr r) 1000000).

(** [compile] and optionally link a program.  The result is the pair the
    Go function returns: the output name and the error. *)
Definition compile (prog : progInfo) (dir : directoryInfo)
  : M (string * option error) :=
  let* cpu := GetBPFCPU in
  let args := compileArgs cpu prog dir in
  run log_entry DebugLevel [("target", FStr compiler); ("args", FStrs args)]
        "Launching compiler" then
  (* exec.WithCancel only builds the command; nothing runs before Create *)
  let name := outputName prog dir in
  let* created := call_Create name in
  match created with
  | Some err => ret ("", Some err)
  | None =>
      let* r := call_Run compiler args name in
      (* compileCmd.ProcessState.SysUsage() reads a field of the receiver:
         on a nil ProcessState that is a nil pointer dereference *)
      let* maxRSS :=
        match run_ProcessState r with
        | None => panic
        | Some (Some maxrss) => ret maxrss
        | Some None => ret 0
        end in
      match run_err r with
      | Some e =>
          let err := ErrWrap ("Failed to compile " +:+ Output prog +:+ ": ") e in
          run (if negb (errors_Is err context_Canceled)
               then log_entry ErrorLevel
                      [("compiler-pid", FStr (pidFromProcess (run_Process r)));
                       ("max-rss", FInt maxRSS)]
                      (error_Error err)
               else ret tt) then
          run log_lines WarnLevel (stderrLines r) then
          ret ("", Some err)
      | None =>
          run (if maxRSS >? 0
               then match run_Process r with
                    | None => panic
                    | Some pid =>
                        log_entry DebugLevel
                          [("compiler-pid", FInt pid); ("output", FStr name)]
                          ("Compilation had peak RSS of " +:+ fmt_d maxRSS +:+ " bytes")
                    end
               else ret tt) then
          ret (name, None)
      end
  end.

(** The [for _, p := range progs] loop of [compileDatapath]. *)
Fixpoint compileDebugProgs (scoped : list (string * FieldValue))
    (progs : list progInfo) (dirs : directoryInfo) : M (option error) :=
  match progs with
  | [] => ret None
  | p :: rest =>
      let* r := compile p dirs in
      match snd r with
      | Some err =>
          run (if negb (errors_Is err context_Canceled)
               then log_entry DebugLevel
                      (scoped ++ [(logfields_Params, FProg p); (logrus_ErrorKey, FErr err)])
                      "JoinEP: Failed to compile"
               else ret tt) then
          ret (Some err)
      | None => compileDebugProgs scoped rest dirs
      end
  end.

(** [compileDatapath] invokes the compiler to create all state files for
    the BPF datapath.  [logger] holds the fields of the logger passed in. *)
Definition compileDatapath (dirs : directoryInfo) (isHost : bool)
    (logger : list (string * FieldValue)) : M (option error) :=
  let scopedLog := logger ++ [(logfields_Debug, FBool true)] in
  let* version := call_CombinedOutput compiler ["--version"] in
  match snd version with
  | Some err => ret (Some err)
  | None =>
      run log_entry DebugLevel
            (scopedLog ++ [(compiler, FStr (string_of_list_byte (fst version)))])
            "Compiling datapath" then
      let* dbg :=
        if Debug (option_Config env)
        then compileDebugProgs scopedLog
               (if isHost then debugHostProgs else debugProgs) dirs
        else ret None in
      match dbg with
      | Some err => ret (Some err)
      | None =>
          let prog := if isHost then hostEpProg else epProg in
          let* r := compile prog dirs in
          match snd r with
          | Some err =>
              run (if negb (errors_Is err context_Canceled)
                   then log_entry WarnLevel
                          (scopedLog ++ [(logfields_Params, FProg prog); (logrus_ErrorKey, FErr err)])
                          "JoinEP: Failed to compile"
                   else ret tt) then
              ret (Some err)
          | None => ret None
          end
      end
  end.

(** [CompileWithOptions] compiles a BPF program generating an object
    file, using a set of provided compiler options. *)
Definition CompileWithOptions (src out : string) (opts : list string)
  : M (option error) :=
  let prog := {| Source := src; Options := opts; Output := out;
                 progOutputType := outputObject |} in
  let dirs := {| Library := BpfDir (option_Config env);
                 Runtime := StateDir (option_Config env);
                 dirOutput := StateDir (option_Config env);
                 dirState := StateDir (option_Config env) |} in
  let* r := compile prog dirs in
  ret (snd r).

(** [Compile] compiles a BPF program generating an object file. *)
Definition Compile (src out : string) : M (option error) :=
  CompileWithOptions src out [].

(** [compileTemplate] compiles a BPF program generating a template object
    file. *)
Definition compileTemplate (out : string) (isHost : bool) : M (option error) :=
  let dirs := {| Library := BpfDir (option_Config env);
                 Runtime := StateDir (option_Config env);
                 dirOutput := out;
                 dirState := out |} in
  compileDatapath dirs isHost [].

(** [compileNetwork] compiles a BPF program attached to network. *)
Definition compileNetwork : M (option error) :=
  let dirs := {| Library := BpfDir (option_Config env);
                 Runtime := StateDir (option_Config env);
                 dirOutput := StateDir (option_Config env);
                 dirState := StateDir (option_Config env) |} in
  let scopedLog := [(logfields_Debug, FBool true)] in
  let* version := call_CombinedOutput compiler ["--version"] in
  match snd version with
  | Some err => ret (Some err)
  | None =>
      run log_entry DebugLevel
            (scopedLog ++ [(compiler, FStr (string_of_list_byte (fst version)))])
            "Compiling network programs" then
      let* r := compile networkTcProg dirs in
      match snd r with
      | Some err =>
          run log_entry WarnLevel
                (scopedLog ++ [(logfields_Params, FProg networkTcProg); (logrus_ErrorKey, FErr err)])
                "Failed to compile" then
          ret (Some err)
      | None => ret None
      end
  end.

(** [compileOverlay] compiles BPF programs in bpf_overlay.c. *)
Definition compileOverlay (opts : list string) : M (option error) :=
  let dirs := {| Library := BpfDir (option_Config env);
                 Runtime := StateDir (option_Config env);
                 dirOutput := StateDir (option_Config env);
                 dirState := StateDir (option_Config env) |} in
  let scopedLog := [(logfields_Debug, FBool true)] in
  let* version := call_CombinedOutput compiler ["--version"] in
  match snd version with
  | Some err => ret (Some err)
  | None =>
      run log_entry DebugLevel
            (scopedLog ++ [(compiler, FStr (string_of_list_byte (fst version)))])
            "Compiling overlay programs" then
      let prog := {| Source := overlayProg; Output := overlayObj;
                     progOutputType := outputObject; Options := opts |} in
      let* r := compile prog dirs in
      match snd r with
      | Some err =>
          run log_entry WarnLevel
                (scopedLog ++ [(logfields_Params, FProg prog); (logrus_ErrorKey, FErr err)])
                "Failed to compile" then
          ret (Some err)
      | None => ret None
      end
  end.

End Loader.

(** ** Observing a run *)

(** The state [GetBPFCPU] leaves behind, and the name it returns. *)
Definition afterCPU (env : Env) (st : State) : State := snd (GetBPFCPU env st).
Definition detectedCPU (env : Env) (st : State) : string := nameBPFCPU (afterCPU env st).

(** The log entry [compile] writes before it launches the compiler. *)
Definition launchEntry (env : Env) (prog : progInfo) (dir : directoryInfo) (st : State)
  : LogEntry :=
  {| level := DebugLevel;
     fields := [("target", FStr compiler);
                ("args", FStrs (compileArgs env (detectedCPU env st) prog dir))];
     message := "Launching compiler" |}.

(** The answer [os.Create] gives to [compile prog dir] called in state [st],
    and the answer the compiler run gives once the file exists. *)
Definition createAnswer (env : Env) (prog : progInfo) (dir : directoryInfo) (st : State)
  : option error :=
  os_Create env (outputName prog dir) (events (afterCPU env st)).

Definition runAnswer (env : Env) (prog : progInfo) (dir : directoryInfo) (st : State)
  : RunResult :=
  cmd_Run env compiler (compileArgs env (detectedCPU env st) prog dir)
    (events (afterCPU env st) ++ [EvCreate (outputName prog dir) None]).

(** The answer of the [clang --version] query asked in state [st]. *)
Definition versionAnswer (env : Env) (st : State) : list byte * option error :=
  cmd_CombinedOutput env compiler ["--version"] (events st).

(** The state in which [compileDatapath] starts compiling, after a version
    query that succeeded. *)
Definition afterVersion (env : Env) (label : string)
    (scoped : list (string * FieldValue)) (st : State) : State :=
  add_log {| level := DebugLevel;
             fields := scoped ++ [(compiler, FStr (string_of_list_byte (fst (versionAnswer env st))))];
             message := label |}
    (add_event (EvCombinedOutput compiler ["--version"]
                  (fst (versionAnswer env st)) (snd (versionAnswer env st))) st).

(** Events and log entries added between two states. *)
Definition new_events (st st' : State) : list Event :=
  drop (length (events st)) (events st').
Definition new_logs (st st' : State) : list LogEntry :=
  drop (length (logs st)) (logs st').

Definition is_probe (e : Event) : bool :=
  match e with EvProbe _ _ => true | _ => false end.
Definition is_run (e : Event) : bool :=
  match e with EvRun _ _ _ _ => true | _ => false end.
Definition is_create (e : Event) : bool :=
  match e with EvCreate _ _ => true | _ => false end.

(** How one attempt to build an artifact ended, as the events show it. *)
Inductive Outcome : Type :=
| CreateFailed (e : error)
| StartFailed (e : error)
| RunFailed (e : error)
| Succeeded.

Definition run_outcome (r : RunResult) : Outcome :=
  match r with
  | NotStarted e => StartFailed e
  | Exited _ _ (Some e) _ _ => RunFailed e
  | Exited _ _ None _ _ => Succeeded
  end.

Definition artifact_of_event (ev : Event) : option (string * Outcome) :=
  match ev with
  | EvCreate name (Some e) => Some (name, CreateFailed e)
  | EvRun _ _ stdout r => Some (stdout, run_outcome r)
  | _ => None
  end.

(** The artifacts attempted in a stretch of events, in order: the file
    each attempt was to fill, and how the attempt ended. *)
Definition artifacts (evs : list Event) : list (string * Outcome) :=
  omap artifact_of_event evs.

(** What a caller of [compile prog] gets back after an attempt that ended
    with the given outcome. *)
Definition attemptError (prog : progInfo) (o : Outcome) : Res (option error) :=
  match o with
  | CreateFailed e => Returned (Some e)
  | StartFailed _ => Panicked
  | RunFailed e => Returned (Some (ErrWrap ("Failed to compile " +:+ Output prog +:+ ": ") e))
  | Succeeded => Returned None
  end.

(** The session state machine of the specification: the planned artifacts
    are attempted in order; the session is done when all succeeded, and
    fails at the first attempt that does not succeed, which is the last
    attempt made. *)
Inductive Session (dirs : directoryInfo) (planned : list progInfo)
  : list (string * Outcome) -> Res (option error) -> Prop :=
| SessionDone :
    Session dirs planned
      (map (fun p => (outputName p dirs, Succeeded)) planned)
      (Returned None)
| SessionFailed done p rest o :
    planned = done ++ p :: rest ->
    o <> Succeeded ->
    Session dirs planned
      (map (fun p => (outputName p dirs, Succeeded)) done ++ [(outputName p dirs, o)])
      (attemptError p o).

(** The artifacts a [compileDatapath] session plans to build: the debug
    triple of the category when debug is on, then the production object. *)
Definition debugPlan (env : Env) (isHost : bool) : list progInfo :=
  if Debug (option_Config env)
  then (if isHost then debugHostProgs else debugProgs)
  else [].

Definition productionProg (isHost : bool) : progInfo :=
  if isHost then hostEpProg else epProg.

Definition plannedProgs (env : Env) (isHost : bool) : list progInfo :=
  debugPlan env isHost ++ [productionProg isHost].

(** The instruction-set levels of the specification and the selection rule
    it gives for [DetectISA]. *)
Inductive IsaLevel : Type := V1 | V2 | V3.

Definition IsaLevel_name (l : IsaLevel) : string :=
  match l with V1 => "v1" | V2 => "v2" | V3 => "v3" end.

Definition DetectISA_spec (dry v3 helper v2 : bool) : IsaLevel :=
  if dry then V1
  else if v3 && helper then V3
  else if v2 then V2
  else V1.

Definition succeeds (r : option error) : bool :=
  match r with None => true | Some _ => false end.

(** The calls a process can make into the loader. *)
Inductive Call : Type :=
| CallGetBPFCPU
| Call_compile (prog : progInfo) (dir : directoryInfo)
| Call_compileDatapath (dirs : directoryInfo) (isHost : bool) (logger : list (string * FieldValue))
| CallCompileWithOptions (src out : string) (opts : list string)
| CallCompile (src out : string)
| Call_compileTemplate (out : string) (isHost : bool)
| Call_compileNetwork
| Call_compileOverlay (opts : list string).

Definition exec_call (env : Env) (st : State) (c : Call) : State :=
  match c with
  | CallGetBPFCPU => snd (GetBPFCPU env st)
  | Call_compile prog dir => snd (compile env prog dir st)
  | Call_compileDatapath dirs isHost logger => snd (compileDatapath env dirs isHost logger st)
  | CallCompileWithOptions src out opts => snd (CompileWithOptions env src out opts st)
  | CallCompile src out => snd (Compile env src out st)
  | Call_compileTemplate out isHost => snd (compileTemplate env out isHost st)
  | Call_compileNetwork => snd (compileNetwork env st)
  | Call_compileOverlay opts => snd (compileOverlay env opts st)
  end.

Definition exec_calls (env : Env) (calls : list Call) (st : State) : State :=
  fold_left (exec_call env) calls st.

Definition Level_eqb (a b : Level) : bool :=
  match a, b with
  | ErrorLevel, ErrorLevel | WarnLevel, WarnLevel
  | InfoLevel, InfoLevel | DebugLevel, DebugLevel => true
  | _, _ => false
  end.

(** Total size of the messages logged at a level. *)
Definition logged_bytes (lvl : Level) (l : list LogEntry) : nat :=
  list_sum (map (fun e => String.length (message e))
              (List.filter (fun e => Level_eqb (level e) lvl) l)).

(** Once the probe has run, a later state has the BPF CPU frozen: the once
    flag stays set, the name is the same and no probe event was added. *)
Definition frozen (st st' : State) : Prop :=
  probeCPUOnce st' = true /\
  nameBPFCPU st' = nameBPFCPU st /\
  List.filter is_probe (events st') = List.filter is_probe (events st).

Definition keeps {A} (m : M A) : Prop :=
  forall st, probeCPUOnce st = true -> frozen st (snd (m st)).

(** The states [compile prog dir] goes through when called in [st]: after
    the launch message, after the file was created, after the compiler
    ran. *)
Definition stLaunched (env : Env) (prog : progInfo) (dir : directoryInfo) (st : State)
  : State :=
  add_log (launchEntry env prog dir st) (afterCPU env st).

Definition stCreated (env : Env) (prog : progInfo) (dir : directoryInfo) (st : State)
  : State :=
  write_file (outputName prog dir) []
    (add_event (EvCreate (outputName prog dir) None) (stLaunched env prog dir st)).

Definition stRan (env : Env) (prog : progInfo) (dir : directoryInfo) (st : State)
  : State :=
  write_file (outputName prog dir) (run_stdout (runAnswer env prog dir st))
    (add_event (EvRun compiler (compileArgs env (detectedCPU env st) prog dir)
                  (outputName prog dir) (runAnswer env prog dir st))
       (stCreated env prog dir st)).

(** The error [compile] makes of a failed run. *)
Definition compileError (prog : progInfo) (e : error) : error :=
  ErrWrap ("Failed to compile " +:+ Output prog +:+ ": ") e.

Definition warnEntry (msg : string) : LogEntry :=
  {| level := WarnLevel; fields := []; message := msg |}.

(** The error part of what [compile] returned. *)
Definition result_error (r : Res (string * option error)) : Res (option error) :=
  match r with
  | Returned (_, err) => Returned err
  | Panicked => Panicked
  end.

(** The directories the network and overlay sessions compile in. *)
Definition stateDirs (env : Env) : directoryInfo :=
  {| Library := BpfDir (option_Config env);
     Runtime := StateDir (option_Config env);
     dirState := StateDir (option_Config env);
     dirOutput := StateDir (option_Config env) |}.

(** The two phases of [compileDatapath] after the version query: the
    debug artifacts when debug is on, then the production object. *)
Definition debugPhase (env : Env) (scoped : list (string * FieldValue))
    (isHost : bool) (dirs : directoryInfo) : M (option error) :=
  if Debug (option_Config env)
  then compileDebugProgs env scoped (if isHost then debugHostProgs else debugProgs) dirs
  else ret None.

Definition productionPhase (env : Env) (scoped : list (string * FieldValue))
    (isHost : bool) (dirs : directoryInfo) : M (option error) :=
  let prog := if isHost then hostEpProg else epProg in
  let* r := compile env prog dirs in
  match snd r with
  | Some err =>
      run (if negb (errors_Is err context_Canceled)
           then log_entry WarnLevel
                  (scoped ++ [(logfields_Params, FProg prog); (logrus_ErrorKey, FErr err)])
                  "JoinEP: Failed to compile"
           else ret tt) then
      ret (Some err)
  | None => ret None
  end.

(** ** Example environments *)

(** An environment whose oracles answer the same whatever happened
    before. *)
Definition constEnv (cfg : Config) (includes : list string)
    (probe : Probe -> option error) (create : option error)
    (ran : RunResult) (version : list byte * option error) : Env :=
  {| option_Config := cfg;
     testIncludes := includes;
     numPossibleCPUs := 4;
     probes := fun p _ => probe p;
     os_Create := fun _ _ => create;
     cmd_Run := fun _ _ _ => ran;
     cmd_CombinedOutput := fun _ _ _ => version |}.

Definition exampleConfig (dry debug : bool) : Config :=
  {| DryMode := dry; Debug := debug; BpfDir := "/L"; StateDir := "/S" |}.

Definition exampleDirs : directoryInfo :=
  {| Library := "/L"; Runtime := "/R"; dirState := "/S"; dirOutput := "/O" |}.

Definition exampleProg : progInfo :=
  {| Source := "x.c"; Output := "x.o"; progOutputType := outputObject;
     Options := ["-DFOO=1"] |}.

Definition noProbe (p : Probe) : option error := Some (ErrLeaf "operation not supported").
Definition allProbes (p : Probe) : option error := None.

Definition ranOk : RunResult := Exited 4242 (Some 65536) None [x7f; x45; x4c; x46] [].
Definition ranCanceled : RunResult :=
  Exited 4242 (Some 65536) (Some context_Canceled) [] [x6b; x69; x6c; x6c; x65; x64; x0a].
Definition startFailed : RunResult :=
  NotStarted (ErrLeaf "fork/exec clang: no such file or directory").
Definition ranNoisy : RunResult :=
  Exited 4242 (Some 65536) (Some (ErrLeaf "exit status 1")) []
    (repeat x2e (N.to_nat 1000001)).
Definition ranExit1 : RunResult :=
  Exited 4242 (Some 65536) (Some (ErrLeaf "exit status 1")) [x7f] [x65; x72; x72; x0a].

(** ** Theorems *)

Lemma errors_Is_refl e : errors_Is e e = true.
Proof.
  assert (H : error_eqb e e = true).
  { induction e as [|m|p e IH]; simpl; rewrite ?String.eqb_refl; auto. }
  destruct e; simpl in *; rewrite ?H; auto.
Qed.

Lemma errors_Is_wrap prefix e target :
  errors_Is e target = true -> errors_Is (ErrWrap prefix e) target = true.
Proof. intros H. simpl. rewrite H. apply orb_true_r. Qed.

(** *** The BPF CPU probe *)

Section ProbeFacts.

Variable env : Env.

Lemma GetBPFCPU_done st :
  probeCPUOnce st = true ->
  GetBPFCPU env st = (Returned (nameBPFCPU st), st).
Proof.
  intros H. unfold GetBPFCPU, bind, Once_Do. rewrite H. reflexivity.
Qed.

(** [GetBPFCPU] always returns, and leaves the once flag set. *)
Lemma GetBPFCPU_returns st :
  GetBPFCPU env st = (Returned (detectedCPU env st), afterCPU env st).
Proof.
  unfold detectedCPU, afterCPU, GetBPFCPU, bind, Once_Do.
  destruct (probeCPUOnce st); [reflexivity|].
  unfold probeCPU, probeV2, bind, call_probe, modify, ret.
  destruct (DryMode (option_Config env)); simpl; [reflexivity|].
  repeat (match goal with
          | |- context [match probes env ?p ?h with _ => _ end] =>
              destruct (probes env p h)
          end; simpl); reflexivity.
Qed.

Lemma afterCPU_once st : probeCPUOnce (afterCPU env st) = true.
Proof.
  unfold afterCPU, GetBPFCPU, bind, Once_Do.
  destruct (probeCPUOnce st) eqn:E; [exact E|].
  destruct (probeCPU env st) as [[[]|] st']; reflexivity.
Qed.

(** The probe touches neither the log nor the files, and the events it
    adds are probe events. *)
Lemma afterCPU_frame st :
  logs (afterCPU env st) = logs st /\
  files (afterCPU env st) = files st /\
  exists pe, events (afterCPU env st) = events st ++ pe /\
             Forall (fun e => is_probe e = true) pe.
Proof.
  unfold afterCPU, GetBPFCPU, bind, Once_Do.
  destruct (probeCPUOnce st).
  { simpl. repeat split. exists []. rewrite app_nil_r. auto. }
  unfold probeCPU, probeV2, bind, call_probe, modify, ret.
  destruct (DryMode (option_Config env)); simpl.
  { repeat split. exists []. rewrite app_nil_r. auto. }
  repeat (match goal with
          | |- context [match probes env ?p ?h with _ => _ end] =>
              destruct (probes env p h) eqn:?
          end; simpl);
    repeat split; rewrite <- ?app_assoc; eexists; (split; [reflexivity|]);
    repeat constructor.
Qed.

End ProbeFacts.

(** C3. The first execution of [GetBPFCPU] (once flag clear, name at its
    default "v1"), for every combination [o3], [oh], [o2] of answers of the
    three probes: in dry mode it returns "v1" and no event is added, so no
    probe was invoked; otherwise it returns "v3" when the ISA v3 probe and
    the redirect-neighbour helper probe both answer nil, else "v2" when the
    ISA v2 probe answers nil, else "v1".  A probe error only steers the
    choice: the call returns a name in every case. *)
Theorem C3_first_GetBPFCPU_selects_by_probes
    (env : Env) (o3 oh o2 : option error) (st : State) :
  probeCPUOnce st = false ->
  nameBPFCPU st = "v1" ->
  (forall h, probes env HaveV3ISA h = o3) ->
  (forall h, probes env (HaveProgramHelper ebpf_SchedCLS asm_FnRedirectNeigh) h = oh) ->
  (forall h, probes env HaveV2ISA h = o2) ->
  fst (GetBPFCPU env st)
    = Returned (IsaLevel_name
                  (DetectISA_spec (DryMode (option_Config env))
                     (succeeds o3) (succeeds oh) (succeeds o2)))
  /\ (DryMode (option_Config env) = true ->
      events (snd (GetBPFCPU env st)) = events st).
Proof.
  intros Honce Hname H3 Hh H2.
  unfold GetBPFCPU, bind, Once_Do. rewrite Honce.
  unfold probeCPU, probeV2, bind, call_probe, modify, ret, DetectISA_spec.
  destruct (DryMode (option_Config env)); simpl.
  - split; [now rewrite Hname | reflexivity].
  - split; [|discriminate].
    rewrite H3. destruct o3 as [e3|]; simpl.
    + rewrite H2. destruct o2; simpl; [now rewrite Hname | reflexivity].
    + rewrite Hh. destruct oh as [eh|]; simpl; [|reflexivity].
      rewrite H2. destruct o2; simpl; [now rewrite Hname | reflexivity].
Qed.

Lemma C3_witness :
  fst (GetBPFCPU (constEnv (exampleConfig false false) []
                    (fun p => match p with HaveV2ISA => None | _ => noProbe p end)
                    None ranOk ([], None))
         (initState ∅))
    = Returned "v2".
Proof.
  apply (C3_first_GetBPFCPU_selects_by_probes
           (constEnv (exampleConfig false false) []
              (fun p => match p with HaveV2ISA => None | _ => noProbe p end)
              None ranOk ([], None))
           (noProbe HaveV3ISA)
           (noProbe (HaveProgramHelper ebpf_SchedCLS asm_FnRedirectNeigh))
           None (initState ∅)); reflexivity.
Defined.

Create HintDb keeps.

Section Frozen.

Variable env : Env.

Lemma frozen_refl st : probeCPUOnce st = true -> frozen st st.
Proof. intros H. repeat split; assumption. Qed.

Lemma frozen_trans st1 st2 st3 : frozen st1 st2 -> frozen st2 st3 -> frozen st1 st3.
Proof.
  intros (_ & N1 & E1) (O2 & N2 & E2).
  repeat split; [assumption | congruence | congruence].
Qed.

Lemma keeps_ret {A} (a : A) : keeps (ret a).
Proof. intros st H. now apply frozen_refl. Qed.

Lemma keeps_panic {A} : keeps (@panic A).
Proof. intros st H. now apply frozen_refl. Qed.

Lemma keeps_bind {A B} (m : M A) (f : A -> M B) :
  keeps m -> (forall a, keeps (f a)) -> keeps (bind m f).
Proof.
  intros Hm Hf st H. unfold bind.
  specialize (Hm st H). destruct (m st) as [[a|] st1]; simpl in *; [|exact Hm].
  eapply frozen_trans; [exact Hm|]. apply Hf. apply Hm.
Qed.

Lemma keeps_log lvl flds msg : keeps (log_entry lvl flds msg).
Proof. intros st H. repeat split; assumption. Qed.

Lemma keeps_log_lines lvl lines : keeps (log_lines lvl lines).
Proof.
  induction lines as [|l rest IH]; simpl.
  - apply keeps_ret.
  - apply keeps_bind; [apply keeps_log | intros _; exact IH].
Qed.

Lemma filter_probe_snoc (evs : list Event) e :
  is_probe e = false ->
  List.filter is_probe (evs ++ [e]) = List.filter is_probe evs.
Proof.
  intros H. rewrite List.filter_app. simpl. rewrite H. apply app_nil_r.
Qed.

Lemma keeps_CombinedOutput name args : keeps (call_CombinedOutput env name args).
Proof.
  intros st H. repeat split; simpl; auto. now apply filter_probe_snoc.
Qed.

Lemma keeps_Create name : keeps (call_Create env name).
Proof.
  intros st H. unfold call_Create. simpl.
  destruct (os_Create env name (events st));
    repeat split; simpl; auto; now apply filter_probe_snoc.
Qed.

Lemma keeps_Run name args out : keeps (call_Run env name args out).
Proof.
  intros st H. repeat split; simpl; auto. now apply filter_probe_snoc.
Qed.

Lemma keeps_GetBPFCPU : keeps (GetBPFCPU env).
Proof.
  intros st H. rewrite GetBPFCPU_done by assumption. now apply frozen_refl.
Qed.

#[local] Hint Resolve keeps_ret keeps_panic keeps_log keeps_log_lines
  keeps_CombinedOutput keeps_Create keeps_Run keeps_GetBPFCPU : keeps.

Ltac keeps_step :=
  match goal with
  | |- keeps (bind _ _) => apply keeps_bind; [|intros ?]
  | |- keeps (match ?x with _ => _ end) => destruct x
  | |- keeps (if ?b then _ else _) => destruct b
  | |- keeps _ => solve [auto with keeps]
  end.

Lemma keeps_compile prog dir : keeps (compile env prog dir).
Proof. unfold compile. repeat keeps_step. Qed.

Lemma keeps_compileDebugProgs scoped progs dirs :
  keeps (compileDebugProgs env scoped progs dirs).
Proof.
  induction progs as [|p rest IH]; simpl.
  - apply keeps_ret.
  - apply keeps_bind; [apply keeps_compile|]. intros r.
    destruct (snd r); [repeat keeps_step | exact IH].
Qed.

#[local] Hint Resolve keeps_compile keeps_compileDebugProgs : keeps.

Lemma keeps_compileDatapath dirs isHost logger :
  keeps (compileDatapath env dirs isHost logger).
Proof. unfold compileDatapath. repeat keeps_step. Qed.

Lemma keeps_CompileWithOptions src out opts :
  keeps (CompileWithOptions env src out opts).
Proof. unfold CompileWithOptions. repeat keeps_step. Qed.

Lemma keeps_compileNetwork : keeps (compileNetwork env).
Proof. unfold compileNetwork. repeat keeps_step. Qed.

Lemma keeps_compileOverlay opts : keeps (compileOverlay env opts).
Proof. unfold compileOverlay. repeat keeps_step. Qed.

(** Every call into the loader keeps the BPF CPU frozen. *)
Lemma exec_call_frozen st c :
  probeCPUOnce st = true -> frozen st (exec_call env st c).
Proof.
  intros H. destruct c; simpl.
  - now apply keeps_GetBPFCPU.
  - now apply keeps_compile.
  - now apply keeps_compileDatapath.
  - now apply keeps_CompileWithOptions.
  - now apply keeps_CompileWithOptions.
  - now apply keeps_compileDatapath.
  - now apply keeps_compileNetwork.
  - now apply keeps_compileOverlay.
Qed.

Lemma exec_calls_frozen calls st :
  probeCPUOnce st = true -> frozen st (exec_calls env calls st).
Proof.
  revert st. induction calls as [|c rest IH]; intros st H; simpl.
  - now apply frozen_refl.
  - pose proof (exec_call_frozen st c H) as Hc.
    eapply frozen_trans; [exact Hc|]. apply IH. apply Hc.
Qed.

End Frozen.

(** C4. Two calls of [GetBPFCPU] in one process return the same name:
    after a first call in any state, whatever calls into the loader come in
    between, and even when the later calls run against another environment
    [env'] (other probe answers, another configuration), the second call
    returns what the first returned, changes nothing, and no probe event
    has been added since the first call returned. *)
Theorem C4_GetBPFCPU_probes_once
    (env env' : Env) (calls : list Call) (st : State) :
  let st1 := snd (GetBPFCPU env st) in
  let st2 := exec_calls env' calls st1 in
  GetBPFCPU env' st2 = (fst (GetBPFCPU env st), st2)
  /\ List.filter is_probe (events st2) = List.filter is_probe (events st1).
Proof.
  intros st1 st2.
  assert (H1 : probeCPUOnce st1 = true) by apply afterCPU_once.
  destruct (exec_calls_frozen env' calls st1 H1) as (O2 & N2 & E2).
  fold st2 in O2, N2, E2. split; [|exact E2].
  rewrite (GetBPFCPU_done env' st2 O2), N2.
  rewrite (GetBPFCPU_returns env st). reflexivity.
Qed.

(** *** One compile *)

Section CompileFacts.

Variable env : Env.

Arguments afterCPU : simpl never.
Arguments detectedCPU : simpl never.

Lemma log_lines_eq lvl lines st :
  log_lines lvl lines st
  = (Returned tt,
     {| probeCPUOnce := probeCPUOnce st; nameBPFCPU := nameBPFCPU st;
        events := events st;
        logs := logs st ++ map (fun l => {| level := lvl; fields := []; message := l |}) lines;
        files := files st |}).
Proof.
  revert st. induction lines as [|l rest IH]; intros st; simpl.
  - unfold ret. rewrite app_nil_r. now destruct st.
  - unfold bind, log_entry, modify. rewrite IH. simpl.
    now rewrite <- app_assoc.
Qed.

Lemma compile_create_failed prog dir st e :
  createAnswer env prog dir st = Some e ->
  compile env prog dir st
  = (Returned ("", Some e),
     add_event (EvCreate (outputName prog dir) (Some e)) (stLaunched env prog dir st)).
Proof.
  intros H. unfold compile, bind. rewrite GetBPFCPU_returns.
  unfold log_entry, modify, call_Create. simpl.
  unfold createAnswer in H. rewrite H. reflexivity.
Qed.

Lemma compile_start_failed prog dir st e :
  createAnswer env prog dir st = None ->
  runAnswer env prog dir st = NotStarted e ->
  compile env prog dir st = (Panicked, stRan env prog dir st).
Proof.
  intros Hc Hr. unfold compile, bind. rewrite GetBPFCPU_returns.
  unfold log_entry, modify, call_Create. simpl.
  unfold createAnswer in Hc. rewrite Hc. unfold call_Run. simpl.
  unfold stRan, stCreated, stLaunched. unfold runAnswer in *.
  rewrite Hr. reflexivity.
Qed.

Lemma compile_run_failed prog dir st pid usage e out errb :
  createAnswer env prog dir st = None ->
  runAnswer env prog dir st = Exited pid usage (Some e) out errb ->
  exists st',
    compile env prog dir st = (Returned ("", Some (compileError prog e)), st')
    /\ probeCPUOnce st' = true
    /\ nameBPFCPU st' = detectedCPU env st
    /\ events st' = events (stRan env prog dir st)
    /\ files st' = files (stRan env prog dir st)
    /\ logs st'
       = logs (stRan env prog dir st)
           ++ (if errors_Is e context_Canceled then []
               else [ {| level := ErrorLevel;
                         fields := [("compiler-pid", FStr (fmt_d pid));
                                    ("max-rss", FInt (default 0 usage))];
                         message := error_Error (compileError prog e) |} ])
           ++ map warnEntry (stderrLines (runAnswer env prog dir st)).
Proof.
  intros Hc Hr. unfold compile, bind. rewrite GetBPFCPU_returns.
  unfold log_entry, modify, call_Create. simpl.
  unfold createAnswer in Hc. rewrite Hc. unfold call_Run. simpl.
  pose proof (afterCPU_once env st) as Ho.
  unfold stRan, stCreated, stLaunched. unfold runAnswer in *.
  rewrite Hr. simpl.
  destruct usage as [m|]; simpl;
    (destruct (errors_Is e context_Canceled); simpl;
     rewrite log_lines_eq; simpl;
     eexists; (split; [reflexivity|]); simpl;
     repeat split; try assumption; try reflexivity;
     now rewrite <- ?app_assoc).
Qed.

Lemma compile_succeeded prog dir st pid usage out errb :
  createAnswer env prog dir st = None ->
  runAnswer env prog dir st = Exited pid usage None out errb ->
  exists st',
    compile env prog dir st = (Returned (outputName prog dir, None), st')
    /\ probeCPUOnce st' = true
    /\ nameBPFCPU st' = detectedCPU env st
    /\ events st' = events (stRan env prog dir st)
    /\ files st' = files (stRan env prog dir st).
Proof.
  intros Hc Hr. unfold compile, bind. rewrite GetBPFCPU_returns.
  unfold log_entry, modify, call_Create. simpl.
  unfold createAnswer in Hc. rewrite Hc. unfold call_Run. simpl.
  pose proof (afterCPU_once env st) as Ho.
  unfold stRan, stCreated, stLaunched. unfold runAnswer in *.
  rewrite Hr. simpl.
  destruct usage as [m|]; simpl; [destruct (m >? 0); simpl | idtac];
    (eexists; (split; [reflexivity|]); simpl; repeat split; try assumption; reflexivity).
Qed.

End CompileFacts.

Section CompileClaims.

Variable env : Env.

Lemma new_events_app st st' evs :
  events st' = events st ++ evs -> new_events st st' = evs.
Proof. intros H. unfold new_events. rewrite H. apply drop_app_length. Qed.

Lemma new_logs_app st st' l :
  logs st' = logs st ++ l -> new_logs st st' = l.
Proof. intros H. unfold new_logs. rewrite H. apply drop_app_length. Qed.

Lemma filter_run_probes (pe : list Event) :
  Forall (fun e => is_probe e = true) pe -> List.filter is_run pe = [].
Proof.
  induction 1 as [|e pe He _ IH]; [reflexivity|].
  simpl. destruct e; simpl in *; try discriminate. exact IH.
Qed.

Lemma artifacts_probes (pe : list Event) :
  Forall (fun e => is_probe e = true) pe -> artifacts pe = [].
Proof.
  induction 1 as [|e pe He _ IH]; [reflexivity|].
  destruct e; simpl in *; try discriminate. exact IH.
Qed.

(** Whatever happens afterwards, [compile] first logs the arguments it
    built; what it logs after that is at debug level unless the compiler
    ran and failed. *)
Lemma compile_logs prog dir st :
  exists extra,
    logs (snd (compile env prog dir st)) = logs st ++ launchEntry env prog dir st :: extra
    /\ (Forall (fun l => level l = DebugLevel) extra
        \/ exists pid usage e out errb front,
             runAnswer env prog dir st = Exited pid usage (Some e) out errb
             /\ Forall (fun l => level l = ErrorLevel) front
             /\ extra = front ++ map warnEntry (stderrLines (runAnswer env prog dir st))).
Proof.
  destruct (afterCPU_frame env st) as (Hl & _ & _).
  destruct (createAnswer env prog dir st) as [e|] eqn:Hc.
  { rewrite (compile_create_failed env prog dir st e Hc). simpl. rewrite Hl.
    exists []. split; [reflexivity | left; constructor]. }
  destruct (runAnswer env prog dir st) as [e|pid usage [e|] out errb] eqn:Hr.
  - rewrite (compile_start_failed env prog dir st e Hc Hr). simpl. rewrite Hl.
    exists []. split; [reflexivity | left; constructor].
  - destruct (compile_run_failed env prog dir st _ _ _ _ _ Hc Hr)
      as (st' & -> & _ & _ & _ & _ & HL).
    simpl. rewrite HL. simpl. rewrite Hl, <- app_assoc. simpl.
    eexists. split; [reflexivity|]. right.
    exists pid, usage, e, out, errb. eexists. split; [reflexivity|].
    rewrite Hr. split; [|reflexivity].
    destruct (errors_Is e context_Canceled); repeat constructor.
  - unfold compile, bind. rewrite GetBPFCPU_returns.
    unfold log_entry, modify, call_Create. simpl.
    unfold createAnswer in Hc. rewrite Hc. unfold call_Run. simpl.
    unfold runAnswer in Hr. rewrite Hr. simpl.
    destruct usage as [m|]; simpl; [destruct (m >? 0); simpl | idtac];
      rewrite Hl; rewrite <- ?app_assoc; simpl;
      (eexists; split; [reflexivity|]); left; repeat constructor.
Qed.

(** C1. For a program of kind object, the arguments [compile] builds are,
    in this order: the test includes (normally none), the four include
    paths [-I<Runtime>/globals], [-I<State>], [-I<Library>],
    [-I<Library>/include], the debug-symbol flag, the standard flags,
    [-mcpu=] with the name [GetBPFCPU] returns, the program's own options
    as given, then [-c], [<Library>/<Source>], [-o], [-]; a path written
    [<A>/<B>] is [path.Join(A, B)].  Every invocation logs these
    arguments first.  When the file can be created and the compiler exits
    with status 0, [compile] runs clang with exactly these arguments, the
    output lands in [<Output>/<Output file>] and that path is returned. *)
Theorem C1_object_compile_flags_and_path
    (prog : progInfo) (dir : directoryInfo) (st : State) :
  progOutputType prog = outputObject ->
  let v := detectedCPU env st in
  let flags :=
    testIncludes env
      ++ [ "-I" +:+ path.Join [Runtime dir; "globals"];
           "-I" +:+ dirState dir;
           "-I" +:+ Library dir;
           "-I" +:+ path.Join [Library dir; "include"] ]
      ++ [ "-g" ]
      ++ standardCFlags (numPossibleCPUs env)
      ++ [ "-mcpu=" +:+ v ]
      ++ Options prog
      ++ [ "-c"; path.Join [Library dir; Source prog]; "-o"; "-" ] in
  let dest := path.Join [dirOutput dir; Output prog] in
  fst (GetBPFCPU env st) = Returned v
  /\ compileArgs env v prog dir = flags
  /\ (exists rest,
        new_logs st (snd (compile env prog dir st))
        = {| level := DebugLevel;
             fields := [("target", FStr "clang"); ("args", FStrs flags)];
             message := "Launching compiler" |} :: rest)
  /\ (forall pid usage out errb,
        createAnswer env prog dir st = None ->
        runAnswer env prog dir st = Exited pid usage None out errb ->
        exists st',
          compile env prog dir st = (Returned (dest, None), st')
          /\ new_events (afterCPU env st) st'
             = [ EvCreate dest None;
                 EvRun "clang" flags dest (Exited pid usage None out errb) ]
          /\ files st' !! dest = Some out).
Proof.
  intros Hkind v flags dest.
  assert (Hargs : compileArgs env v prog dir = flags).
  { unfold compileArgs, flags. rewrite Hkind. reflexivity. }
  split; [now rewrite GetBPFCPU_returns|]. split; [exact Hargs|]. split.
  - destruct (compile_logs prog dir st) as (extra & HL & _).
    exists extra. rewrite (new_logs_app _ _ _ HL).
    unfold launchEntry. fold v. rewrite Hargs. reflexivity.
  - intros pid usage out errb Hc Hr.
    destruct (compile_succeeded env prog dir st _ _ _ _ Hc Hr)
      as (st' & Heq & _ & _ & He & Hf).
    exists st'. split; [exact Heq|]. split.
    + apply new_events_app. rewrite He. unfold stRan, stCreated, stLaunched.
      simpl. rewrite Hr. fold v. rewrite Hargs, <- app_assoc. reflexivity.
    + rewrite Hf. unfold stRan. simpl. rewrite Hr. simpl.
      apply lookup_insert_eq.
Qed.

End CompileClaims.

Lemma C1_witness :
  exists st',
    compile (constEnv (exampleConfig false false) [] allProbes None ranOk ([], None))
      exampleProg exampleDirs (initState ∅)
    = (Returned ("/O/x.o", None), st')
    /\ new_events
         (afterCPU (constEnv (exampleConfig false false) [] allProbes None ranOk ([], None))
            (initState ∅)) st'
       = [ EvCreate "/O/x.o" None;
           EvRun "clang"
             [ "-I/R/globals"; "-I/S"; "-I/L"; "-I/L/include"; "-g";
               "-O2"; "--target=bpf"; "-std=gnu89"; "-nostdinc"; "-D__NR_CPUS__=4";
               "-Wall"; "-Wextra"; "-Werror"; "-Wshadow";
               "-Wno-address-of-packed-member"; "-Wno-unknown-warning-option";
               "-Wno-gnu-variable-sized-type-not-at-end";
               "-Wdeclaration-after-statement"; "-Wimplicit-int-conversion";
               "-Wenum-conversion"; "-mcpu=v3"; "-DFOO=1";
               "-c"; "/L/x.c"; "-o"; "-" ]
             "/O/x.o" ranOk ]
    /\ files st' !! "/O/x.o" = Some [x7f; x45; x4c; x46].
Proof.
  destruct (C1_object_compile_flags_and_path
              (constEnv (exampleConfig false false) [] allProbes None ranOk ([], None))
              exampleProg exampleDirs (initState ∅) eq_refl)
    as (_ & _ & _ & H).
  exact (H 4242 (Some 65536) [x7f; x45; x4c; x46] [] eq_refl eq_refl).
Defined.

(** *** Output-kind markers *)

Lemma standardCFlags_no_marker n m :
  In m ["-E"; "-S"; "-g"] -> ~ In m (standardCFlags n).
Proof.
  intros Hm Hin. simpl in Hm, Hin.
  destruct Hm as [<-|[<-|[<-|[]]]];
    repeat (destruct Hin as [Hin|Hin]; [discriminate Hin|]); exact Hin.
Qed.

(** C2 as the code has it.  When neither the test includes, nor the
    program's own options, nor the joined source path spell one of the
    three markers, the arguments contain [-E] exactly for preprocessed
    source, [-S] exactly for assembly, and [-g] exactly for assembly and
    object: every object build carries the debug-symbol flag. *)
Theorem C2_kind_markers
    (env : Env) (cpu : string) (prog : progInfo) (dir : directoryInfo) :
  (forall m, In m ["-E"; "-S"; "-g"] ->
             ~ In m (testIncludes env) /\ ~ In m (Options prog)
             /\ m <> path.Join [Library dir; Source prog]) ->
  let args := compileArgs env cpu prog dir in
  (In "-E" args <-> progOutputType prog = outputSource)
  /\ (In "-S" args <-> progOutputType prog = outputAssembly)
  /\ (In "-g" args <->
      progOutputType prog = outputAssembly \/ progOutputType prog = outputObject).
Proof.
  intros Hclean args.
  assert (Hrest : forall m, In m ["-E"; "-S"; "-g"] ->
            (In m args <-> In m (outputTypeArgs (progOutputType prog)))).
  { intros m Hm. destruct (Hclean m Hm) as (Hti & Hopt & Hsrc).
    pose proof (standardCFlags_no_marker (numPossibleCPUs env) m Hm) as Hstd.
    unfold args, compileArgs. rewrite !in_app_iff. split; [|tauto].
    intros [H|[H|[H|[H|[H|[H|H]]]]]]; try tauto.
    - exfalso. simpl in Hm, H.
      destruct Hm as [<-|[<-|[<-|[]]]];
        repeat (destruct H as [H|H]; [discriminate H|]); exact H.
    - exfalso. simpl in Hm, H.
      destruct Hm as [<-|[<-|[<-|[]]]];
        repeat (destruct H as [H|H]; [discriminate H|]); exact H.
    - exfalso. simpl in Hm, H.
      destruct H as [H|[H|[H|[H|[]]]]]; try (symmetry in H; contradiction);
        destruct Hm as [<-|[<-|[<-|[]]]]; discriminate H. }
  rewrite (Hrest "-E"), (Hrest "-S"), (Hrest "-g") by (simpl; tauto).
  destruct (progOutputType prog); simpl; repeat split;
    intros; repeat match goal with
                   | H : _ \/ _ |- _ => destruct H
                   | H : False |- _ => destruct H
                   end; try discriminate; auto.
Qed.

Lemma C2_witness :
  In "-g" (compileArgs (constEnv (exampleConfig false false) [] allProbes None ranOk ([], None))
             "v3" exampleProg exampleDirs)
  <-> progOutputType exampleProg = outputAssembly
      \/ progOutputType exampleProg = outputObject.
Proof.
  apply (C2_kind_markers
           (constEnv (exampleConfig false false) [] allProbes None ranOk ([], None))
           "v3" exampleProg exampleDirs).
  intros m Hm. simpl in Hm.
  destruct Hm as [<-|[<-|[<-|[]]]]; simpl;
    (split; [tauto | split; [intros [H|[]]; discriminate H | vm_compute; discriminate]]).
Defined.

(** C2 as stated fails twice.  A production session with debug switched
    off builds the endpoint object with [-g] among the arguments; and an
    object build whose own options spell [-E] has [-E] among them. *)
Lemma C2_counterexample :
  Debug (option_Config (constEnv (exampleConfig false false) [] allProbes None ranOk ([], None))) = false
  /\ progOutputType epProg = outputObject
  /\ In "-g" (compileArgs (constEnv (exampleConfig false false) [] allProbes None ranOk ([], None))
                "v3" epProg exampleDirs)
  /\ (exists args,
        In (EvRun "clang" args "/O/bpf_lxc.o" ranOk)
           (events (snd (compileDatapath
                           (constEnv (exampleConfig false false) [] allProbes None ranOk ([], None))
                           exampleDirs false [] (initState ∅))))
        /\ In "-g" args)
  /\ In "-E" (compileArgs (constEnv (exampleConfig false false) [] allProbes None ranOk ([], None))
                "v3"
                {| Source := "x.c"; Output := "x.o"; progOutputType := outputObject;
                   Options := ["-E"] |}
                exampleDirs).
Proof.
  split; [reflexivity|]. split; [reflexivity|].
  split; [vm_compute; tauto|]. split; [|vm_compute; tauto].
  eexists. split.
  - vm_compute. repeat first [left; reflexivity | right].
  - vm_compute. tauto.
Qed.

(** *** Failures of one compile *)

(** C8. When [os.Create] fails for the destination file, [compile] returns
    that error at once: the only event after the BPF CPU lookup is the
    failed creation, no process is run, and the files are untouched. *)
Theorem C8_create_failure_spawns_nothing
    (env : Env) (prog : progInfo) (dir : directoryInfo) (st : State) (e : error) :
  createAnswer env prog dir st = Some e ->
  exists st',
    compile env prog dir st = (Returned ("", Some e), st')
    /\ new_events (afterCPU env st) st'
       = [EvCreate (path.Join [dirOutput dir; Output prog]) (Some e)]
    /\ List.filter is_run (new_events st st') = []
    /\ files st' = files st.
Proof.
  intros Hc. rewrite (compile_create_failed env prog dir st e Hc).
  destruct (afterCPU_frame env st) as (_ & Hf & pe & He & Hpe).
  eexists. split; [reflexivity|]. split; [|split].
  - apply new_events_app. reflexivity.
  - erewrite new_events_app; [|simpl; rewrite He, <- app_assoc; reflexivity].
    rewrite List.filter_app, (filter_run_probes pe Hpe). reflexivity.
  - simpl. exact Hf.
Qed.

Lemma C8_witness :
  exists st',
    compile (constEnv (exampleConfig false false) [] allProbes
               (Some (ErrLeaf "open /O/x.o: permission denied")) ranOk ([], None))
      exampleProg exampleDirs (initState ∅)
    = (Returned ("", Some (ErrLeaf "open /O/x.o: permission denied")), st')
    /\ List.filter is_run (new_events (initState ∅) st') = []
    /\ files st' = ∅.
Proof.
  destruct (C8_create_failure_spawns_nothing
              (constEnv (exampleConfig false false) [] allProbes
                 (Some (ErrLeaf "open /O/x.o: permission denied")) ranOk ([], None))
              exampleProg exampleDirs (initState ∅)
              (ErrLeaf "open /O/x.o: permission denied") eq_refl)
    as (st' & H1 & _ & H3 & H4).
  exists st'. split; [exact H1|]. split; [exact H3 | exact H4].
Defined.

(** C9, on the code.  After the destination file was created and the
    compiler run failed with [e], the file is still there, holding what the
    compiler wrote to its standard output, whichever way the run failed.
    When the process ran and exited, [compile] returns the empty name and
    the wrapped error.  When the process could not be started,
    [cmd.ProcessState] is nil and [compile] panics on it instead of
    returning. *)
Theorem C9_failed_run_leaves_file
    (env : Env) (prog : progInfo) (dir : directoryInfo) (st : State) (e : error) :
  createAnswer env prog dir st = None ->
  run_err (runAnswer env prog dir st) = Some e ->
  files (snd (compile env prog dir st)) !! path.Join [dirOutput dir; Output prog]
    = Some (run_stdout (runAnswer env prog dir st))
  /\ (run_ProcessState (runAnswer env prog dir st) <> None ->
      fst (compile env prog dir st)
      = Returned ("", Some (ErrWrap ("Failed to compile " +:+ Output prog +:+ ": ") e)))
  /\ (run_ProcessState (runAnswer env prog dir st) = None ->
      fst (compile env prog dir st) = Panicked).
Proof.
  intros Hc He.
  destruct (runAnswer env prog dir st) as [e'|pid usage [e'|] out errb] eqn:Hr;
    simpl in He; try discriminate; injection He as ->.
  - rewrite (compile_start_failed env prog dir st e Hc Hr). simpl.
    rewrite Hr. simpl. split; [apply lookup_insert_eq|].
    split; [intros H; now destruct H | reflexivity].
  - destruct (compile_run_failed env prog dir st _ _ _ _ _ Hc Hr)
      as (st' & -> & _ & _ & _ & Hf & _).
    simpl. rewrite Hf. unfold stRan. simpl. rewrite Hr. simpl.
    split; [apply lookup_insert_eq|]. split; [reflexivity | discriminate].
Qed.

Lemma C9_witness :
  files (snd (compile (constEnv (exampleConfig false false) [] allProbes None
                         startFailed ([], None))
                exampleProg exampleDirs (initState ∅))) !! "/O/x.o" = Some []
  /\ fst (compile (constEnv (exampleConfig false false) [] allProbes None
                     startFailed ([], None))
            exampleProg exampleDirs (initState ∅)) = Panicked.
Proof.
  destruct (C9_failed_run_leaves_file
              (constEnv (exampleConfig false false) [] allProbes None
                 startFailed ([], None))
              exampleProg exampleDirs (initState ∅)
              (ErrLeaf "fork/exec clang: no such file or directory")
              eq_refl eq_refl)
    as (H1 & _ & H3).
  split; [exact H1 | exact (H3 eq_refl)].
Defined.

(** *** The diagnostic tail *)

Lemma string_of_list_byte_length (l : list byte) :
  String.length (string_of_list_byte l) = length l.
Proof.
  unfold string_of_list_byte.
  induction l as [|b l IH]; simpl; [reflexivity | now rewrite IH].
Qed.

Lemma dropCR_length (l : list byte) : (length (dropCR l) <= length l)%nat.
Proof.
  unfold dropCR. destruct (rev l) as [|b front] eqn:E; [lia|].
  assert (Hl : length l = S (length front)).
  { rewrite <- (length_rev l), E. reflexivity. }
  destruct b; try lia. rewrite length_rev. lia.
Qed.

Lemma scan_lines_bytes (data cur : list byte) :
  (list_sum (map (@length byte) (scan_lines cur data)) <= length cur + length data)%nat.
Proof.
  revert cur. induction data as [|b rest IH]; intros cur; simpl.
  - pose proof (dropCR_length cur). destruct cur; simpl in *; lia.
  - destruct (Byte.eqb b x0a).
    + simpl. pose proof (dropCR_length cur). specialize (IH []). simpl in IH. lia.
    + destruct (N.leb _ _); simpl; [lia|].
      specialize (IH (cur ++ [b])). rewrite length_app in IH. simpl in IH. lia.
Qed.

Lemma io_LimitReader_length (r : list byte) (n : N) :
  (N.of_nat (length (io_LimitReader r n)) <= n)%N.
Proof.
  revert n. induction r as [|b rest IH]; intros n; simpl; [lia|].
  destruct (N.eqb_spec n 0); simpl; [lia|].
  specialize (IH (N.pred n)). lia.
Qed.

Lemma Scanner_lines_bytes (r : list byte) :
  (list_sum (map String.length (Scanner_lines r)) <= length r)%nat.
Proof.
  unfold Scanner_lines. rewrite map_map.
  erewrite map_ext; [|intros; apply string_of_list_byte_length].
  apply (scan_lines_bytes r []).
Qed.

Lemma logged_bytes_app lvl (a b : list LogEntry) :
  logged_bytes lvl (a ++ b) = (logged_bytes lvl a + logged_bytes lvl b)%nat.
Proof.
  unfold logged_bytes. now rewrite List.filter_app, map_app, list_sum_app.
Qed.

Lemma logged_bytes_other lvl lvl' (l : list LogEntry) :
  Level_eqb lvl' lvl = false ->
  Forall (fun e => level e = lvl') l -> logged_bytes lvl l = 0%nat.
Proof.
  intros Hne. induction 1 as [|e l He _ IH]; [reflexivity|].
  unfold logged_bytes in *. simpl. rewrite He, Hne. exact IH.
Qed.

Lemma logged_bytes_warn (lines : list string) :
  logged_bytes WarnLevel (map warnEntry lines) = list_sum (map String.length lines).
Proof.
  unfold logged_bytes. induction lines as [|l rest IH]; simpl; [reflexivity|].
  now rewrite IH.
Qed.

(** C7 as the code has it.  Whatever the compiler writes to its error
    stream, the lines one [compile] logs from it (the only entries it logs
    at warning level) total at most 1,000,000 bytes: they are cut from the
    first 1,000,000 bytes of the buffer. *)
Theorem C7_logged_tail_bounded
    (env : Env) (prog : progInfo) (dir : directoryInfo) (st : State) :
  (N.of_nat (logged_bytes WarnLevel (new_logs st (snd (compile env prog dir st))))
   <= 1000000)%N.
Proof.
  destruct (compile_logs env prog dir st) as (extra & HL & Hextra).
  rewrite (new_logs_app _ _ _ HL).
  change (launchEntry env prog dir st :: extra)
    with ([launchEntry env prog dir st] ++ extra).
  rewrite logged_bytes_app.
  rewrite (logged_bytes_other WarnLevel DebugLevel [launchEntry env prog dir st])
    by (try reflexivity; repeat constructor).
  destruct Hextra as [Hdbg|(pid & usage & e & out & errb & front & Hr & Hfront & ->)].
  - rewrite (logged_bytes_other WarnLevel DebugLevel extra) by (try reflexivity; assumption).
    simpl. lia.
  - rewrite logged_bytes_app.
    rewrite (logged_bytes_other WarnLevel ErrorLevel front) by (try reflexivity; assumption).
    rewrite logged_bytes_warn. unfold stderrLines. simpl.
    pose proof (Scanner_lines_bytes
                  (io_LimitReader (compilerStderr (runAnswer env prog dir st)) 1000000)) as H1.
    pose proof (io_LimitReader_length
                  (compilerStderr (runAnswer env prog dir st)) 1000000) as H2.
    lia.
Qed.

(** C7 as stated fails: the buffer [compile] captures the error stream in
    takes all of it.  A compiler that writes 1,000,001 bytes to its error
    stream leaves 1,000,001 bytes in the buffer. *)
Lemma C7_counterexample :
  (1000000 <
   N.of_nat (length (compilerStderr
                       (runAnswer (constEnv (exampleConfig false false) [] allProbes None
                                     ranNoisy ([], None))
                          exampleProg exampleDirs (initState ∅)))))%N.
Proof.
  change (runAnswer _ _ _ _) with ranNoisy.
  unfold compilerStderr, ranNoisy. cbn [run_stderr].
  rewrite repeat_length, N2Nat.id. reflexivity.
Qed.

(** *** Sessions *)

Section SessionFacts.

Variable env : Env.

(** One [compile] is one attempt: it adds the events of exactly one
    artifact, and what it returns is what the outcome of that attempt
    gives. *)
Lemma compile_attempt prog dir st :
  exists o evs,
    events (snd (compile env prog dir st)) = events st ++ evs
    /\ artifacts evs = [(outputName prog dir, o)]
    /\ result_error (fst (compile env prog dir st)) = attemptError prog o.
Proof.
  destruct (afterCPU_frame env st) as (_ & _ & pe & He & Hpe).
  pose proof (artifacts_probes pe Hpe) as Hart.
  destruct (createAnswer env prog dir st) as [e|] eqn:Hc.
  { rewrite (compile_create_failed env prog dir st e Hc). simpl.
    exists (CreateFailed e). eexists. rewrite He, <- app_assoc.
    split; [reflexivity|]. split; [|reflexivity].
    unfold artifacts in *. rewrite omap_app, Hart. reflexivity. }
  destruct (runAnswer env prog dir st) as [e|pid usage [e|] out errb] eqn:Hr.
  - rewrite (compile_start_failed env prog dir st e Hc Hr). simpl.
    exists (StartFailed e). eexists. rewrite He, <- !app_assoc.
    split; [reflexivity|]. split; [|reflexivity].
    unfold artifacts in *. rewrite omap_app, Hart. simpl. now rewrite Hr.
  - destruct (compile_run_failed env prog dir st _ _ _ _ _ Hc Hr)
      as (st' & -> & _ & _ & Hev & _).
    simpl. rewrite Hev. simpl.
    exists (RunFailed e). eexists. rewrite He, <- !app_assoc.
    split; [reflexivity|]. split; [|reflexivity].
    unfold artifacts in *. rewrite omap_app, Hart. simpl. now rewrite Hr.
  - destruct (compile_succeeded env prog dir st _ _ _ _ Hc Hr)
      as (st' & -> & _ & _ & Hev & _).
    simpl. rewrite Hev. simpl.
    exists Succeeded. eexists. rewrite He, <- !app_assoc.
    split; [reflexivity|]. split; [|reflexivity].
    unfold artifacts in *. rewrite omap_app, Hart. simpl. now rewrite Hr.
Qed.

Lemma Session_cons_ok dirs p progs arts res :
  Session dirs progs arts res ->
  Session dirs (p :: progs) ((outputName p dirs, Succeeded) :: arts) res.
Proof.
  intros [|done q rest o Hsplit Ho].
  - apply (SessionDone dirs (p :: progs)).
  - apply (SessionFailed dirs (p :: progs) (p :: done) q rest o); [|exact Ho].
    now rewrite Hsplit.
Qed.

Lemma Session_first_failed dirs p progs o :
  o <> Succeeded ->
  Session dirs (p :: progs) [(outputName p dirs, o)] (attemptError p o).
Proof. intros Ho. now apply (SessionFailed dirs (p :: progs) [] p progs o). Qed.

Lemma attemptError_ok p o : attemptError p o = Returned None -> o = Succeeded.
Proof. destruct o; simpl; intros H; congruence. Qed.

Lemma Session_seq dirs progs more arts arts' res :
  Session dirs progs arts (Returned None) ->
  Session dirs more arts' res ->
  Session dirs (progs ++ more) (arts ++ arts') res.
Proof.
  intros H1 H2. inversion H1 as [Ha Hr|done p rest o Hsplit Ho Ha Hr].
  - clear H1 Ha. induction progs as [|q progs IH]; simpl; [exact H2|].
    now apply Session_cons_ok.
  - assert (o = Succeeded) by (apply (attemptError_ok p); congruence).
    contradiction.
Qed.

Lemma Session_extend dirs progs more arts res :
  Session dirs progs arts res ->
  res <> Returned None ->
  Session dirs (progs ++ more) arts res.
Proof.
  intros [|done p rest o Hsplit Ho] Hres; [contradiction|].
  apply (SessionFailed dirs (progs ++ more) done p (rest ++ more) o); [|exact Ho].
  rewrite Hsplit, <- app_assoc. reflexivity.
Qed.

(** The debug loop is a session over its programs. *)
Lemma compileDebugProgs_session scoped progs dirs st :
  exists evs,
    events (snd (compileDebugProgs env scoped progs dirs st)) = events st ++ evs
    /\ Session dirs progs (artifacts evs)
         (fst (compileDebugProgs env scoped progs dirs st)).
Proof.
  revert st. induction progs as [|p rest IH]; intros st.
  - exists []. simpl. rewrite app_nil_r. split; [reflexivity|].
    apply (SessionDone dirs []).
  - destruct (compile_attempt p dirs st) as (o & evs1 & Hev & Hart & Hres).
    simpl. unfold bind.
    destruct (compile env p dirs st) as [[[n [err|]]|] st1]; simpl in *.
    + exists evs1.
      assert (Ho : o <> Succeeded) by (intros ->; discriminate Hres).
      destruct (negb (errors_Is err context_Canceled)); simpl;
        rewrite Hart, Hres;
        (split; [exact Hev | now apply Session_first_failed]).
    + destruct (IH st1) as (evs2 & Hev2 & Hs2).
      exists (evs1 ++ evs2). rewrite Hev2, Hev, <- app_assoc.
      split; [reflexivity|].
      unfold artifacts in *. rewrite omap_app, Hart.
      assert (o = Succeeded) by (apply (attemptError_ok p); congruence).
      subst o. now apply Session_cons_ok.
    + exists evs1. rewrite Hart, Hres.
      assert (Ho : o <> Succeeded) by (intros ->; discriminate Hres).
      split; [exact Hev | now apply Session_first_failed].
Qed.

End SessionFacts.

Section SessionClaims.

Variable env : Env.

(** [compileDatapath] is the version query followed by its two phases. *)
Lemma compileDatapath_phases dirs isHost logger st :
  let scoped := logger ++ [(logfields_Debug, FBool true)] in
  compileDatapath env dirs isHost logger st
  = match snd (versionAnswer env st) with
    | Some e =>
        (Returned (Some e),
         add_event (EvCombinedOutput compiler ["--version"]
                      (fst (versionAnswer env st)) (Some e)) st)
    | None =>
        match debugPhase env scoped isHost dirs
                (afterVersion env "Compiling datapath" scoped st) with
        | (Returned None, st2) => productionPhase env scoped isHost dirs st2
        | (Returned (Some e), st2) => (Returned (Some e), st2)
        | (Panicked, st2) => (Panicked, st2)
        end
    end.
Proof.
  cbn zeta. unfold compileDatapath, bind, call_CombinedOutput.
  change (cmd_CombinedOutput env compiler ["--version"] (events st))
    with (versionAnswer env st).
  cbn [fst snd].
  destruct (snd (versionAnswer env st)) as [e|] eqn:Hv; [reflexivity|].
  unfold log_entry, modify. cbn [fst snd].
  unfold debugPhase, productionPhase, bind, afterVersion. rewrite Hv.
  destruct (Debug (option_Config env)); [|reflexivity].
  destruct (compileDebugProgs env _ _ dirs _) as [[[e|]|] st2]; reflexivity.
Qed.

Lemma productionPhase_session scoped isHost dirs st :
  exists evs,
    events (snd (productionPhase env scoped isHost dirs st)) = events st ++ evs
    /\ Session dirs [productionProg isHost] (artifacts evs)
         (fst (productionPhase env scoped isHost dirs st)).
Proof.
  unfold productionPhase, bind. fold (productionProg isHost).
  destruct (compile_attempt env (productionProg isHost) dirs st)
    as (o & evs & Hev & Hart & Hres).
  exists evs.
  destruct (compile env (productionProg isHost) dirs st) as [[[n [err|]]|] st1];
    simpl in *.
  - assert (Ho : o <> Succeeded) by (intros ->; discriminate Hres).
    destruct (negb (errors_Is err context_Canceled)); simpl;
      rewrite Hart, Hres; (split; [exact Hev | now apply Session_first_failed]).
  - assert (o = Succeeded) by (apply (attemptError_ok (productionProg isHost)); congruence).
    subst o. rewrite Hart.
    split; [exact Hev | apply (SessionDone dirs [productionProg isHost])].
  - assert (Ho : o <> Succeeded) by (intros ->; discriminate Hres).
    rewrite Hart, Hres. split; [exact Hev | now apply Session_first_failed].
Qed.

Lemma debugPhase_session scoped isHost dirs st :
  exists evs,
    events (snd (debugPhase env scoped isHost dirs st)) = events st ++ evs
    /\ Session dirs (debugPlan env isHost) (artifacts evs)
         (fst (debugPhase env scoped isHost dirs st)).
Proof.
  unfold debugPhase, debugPlan. destruct (Debug (option_Config env)).
  - apply compileDebugProgs_session.
  - exists []. simpl. rewrite app_nil_r.
    split; [reflexivity | apply (SessionDone dirs [])].
Qed.

(** What the events of a [compileDatapath] session show. *)
Lemma compileDatapath_session dirs isHost logger st :
  match snd (versionAnswer env st) with
  | Some e =>
      fst (compileDatapath env dirs isHost logger st) = Returned (Some e)
      /\ new_events st (snd (compileDatapath env dirs isHost logger st))
         = [EvCombinedOutput compiler ["--version"] (fst (versionAnswer env st)) (Some e)]
  | None =>
      Session dirs (plannedProgs env isHost)
        (artifacts (new_events st (snd (compileDatapath env dirs isHost logger st))))
        (fst (compileDatapath env dirs isHost logger st))
  end.
Proof.
  rewrite compileDatapath_phases. cbn zeta.
  destruct (snd (versionAnswer env st)) as [e|] eqn:Hv.
  { split; [reflexivity|]. now apply new_events_app. }
  set (scoped := logger ++ [(logfields_Debug, FBool true)]).
  set (st1 := afterVersion env "Compiling datapath" scoped st).
  assert (H1 : events st1 = events st ++ [EvCombinedOutput compiler ["--version"]
                                           (fst (versionAnswer env st)) None]).
  { unfold st1, afterVersion. simpl. now rewrite Hv. }
  destruct (debugPhase_session scoped isHost dirs st1) as (evs1 & Hev1 & Hs1).
  destruct (debugPhase env scoped isHost dirs st1) as [[[e|]|] st2];
    cbn [fst snd] in *.
  - erewrite new_events_app; [|rewrite Hev1, H1, <- app_assoc; reflexivity].
    unfold artifacts in *. rewrite omap_app. simpl.
    apply Session_extend; [exact Hs1 | discriminate].
  - destruct (productionPhase_session scoped isHost dirs st2) as (evs2 & Hev2 & Hs2).
    erewrite new_events_app;
      [|rewrite Hev2, Hev1, H1, <- !app_assoc; reflexivity].
    unfold artifacts in *. rewrite !omap_app. simpl.
    apply Session_seq; assumption.
  - erewrite new_events_app; [|rewrite Hev1, H1, <- app_assoc; reflexivity].
    unfold artifacts in *. rewrite omap_app. simpl.
    apply Session_extend; [exact Hs1 | discriminate].
Qed.

(** In a session over debug programs followed by the production
    program, the production program is attempted exactly when every
    attempt among the debug programs succeeded. *)
Lemma Session_production dirs debug prod arts res :
  Session dirs (debug ++ [prod]) arts res ->
  (exists o, arts !! length debug = Some (outputName prod dirs, o))
  <-> Forall (fun a => snd a = Succeeded) (take (length debug) arts).
Proof.
  set (ok := fun p : progInfo => (outputName p dirs, Succeeded)).
  assert (Hok : forall l, Forall (fun a => snd a = Succeeded) (map ok l)).
  { induction l; simpl; constructor; auto. }
  assert (F1 : forall x, (map ok debug ++ [x]) !! length debug = Some x).
  { intros x. rewrite lookup_app_r by (rewrite length_map; lia).
    rewrite length_map, Nat.sub_diag. reflexivity. }
  assert (F2 : forall x, take (length debug) (map ok debug ++ [x]) = map ok debug).
  { intros x. rewrite <- (length_map ok debug). apply take_app_length. }
  intros [|done p rest o Hsplit Ho].
  - rewrite map_app. simpl. fold ok. rewrite F2.
    split; [intros _; apply Hok | intros _; eexists; apply F1].
  - fold ok. destruct rest as [|q rest].
    + apply app_inj_tail in Hsplit as [<- <-]. rewrite F2.
      split; [intros _; apply Hok | intros _; eexists; apply F1].
    + assert (Hlen : (length done + 2 + length rest = length debug + 1)%nat).
      { apply (f_equal (@length progInfo)) in Hsplit.
        rewrite !length_app in Hsplit. simpl in Hsplit. lia. }
      split.
      * intros [o' Hl]. apply lookup_lt_Some in Hl.
        rewrite length_app, length_map in Hl. simpl in Hl. lia.
      * intros HF. rewrite take_ge in HF
          by (rewrite length_app, length_map; simpl; lia).
        apply Forall_app in HF as [_ HF]. inversion HF as [|? ? Hhd _]; subst.
        simpl in Hhd. contradiction.
Qed.

End SessionClaims.

(** C5. The events of a [compileDatapath] session.  When the version
    query fails, the session returns that error and the query is its only
    event: nothing is compiled.  Otherwise the artifacts attempted are the
    planned ones in their order (the debug triple when debug is on, then
    the production object): either all of them, each a success, and the
    session returns nil; or a run of successes and then one attempt that
    did not succeed, which is the last attempt made and whose error the
    session returns (a compiler that never started makes the session
    panic).  So the production object is attempted exactly when the
    version query worked and every attempt at a debug artifact succeeded. *)
Theorem C5_session_is_fail_fast
    (env : Env) (dirs : directoryInfo) (isHost : bool)
    (logger : list (string * FieldValue)) (st : State) :
  let res := fst (compileDatapath env dirs isHost logger st) in
  let evs := new_events st (snd (compileDatapath env dirs isHost logger st)) in
  match snd (versionAnswer env st) with
  | Some e =>
      res = Returned (Some e)
      /\ evs = [EvCombinedOutput "clang" ["--version"] (fst (versionAnswer env st)) (Some e)]
      /\ artifacts evs = []
  | None =>
      Session dirs (debugPlan env isHost ++ [productionProg isHost]) (artifacts evs) res
      /\ ((exists o, artifacts evs !! length (debugPlan env isHost)
                     = Some (outputName (productionProg isHost) dirs, o))
          <-> Forall (fun a => snd a = Succeeded)
                (take (length (debugPlan env isHost)) (artifacts evs)))
  end.
Proof.
  intros res evs.
  pose proof (compileDatapath_session env dirs isHost logger st) as H.
  fold res evs in H.
  destruct (snd (versionAnswer env st)) as [e|].
  - destruct H as [H1 H2]. split; [exact H1|]. split; [exact H2|].
    rewrite H2. reflexivity.
  - split; [exact H|]. eapply Session_production. exact H.
Qed.

(** A session with debug on whose first debug artifact fails attempts
    nothing else. *)
Example first_debug_failure_stops_session :
  artifacts (events (snd (compileDatapath
                            (constEnv (exampleConfig false true) [] allProbes None
                               ranExit1 ([], None))
                            exampleDirs false [] (initState ∅))))
  = [("/O/bpf_lxc.dbg.o", RunFailed (ErrLeaf "exit status 1"))].
Proof. vm_compute. reflexivity. Qed.

(** *** Cancellation *)

(** [compileNetwork] is the version query followed by one [compile]. *)
Lemma compileNetwork_unfold (env : Env) (st : State) :
  compileNetwork env st
  = match snd (versionAnswer env st) with
    | Some e =>
        (Returned (Some e),
         add_event (EvCombinedOutput compiler ["--version"]
                      (fst (versionAnswer env st)) (Some e)) st)
    | None =>
        match compile env networkTcProg (stateDirs env)
                (afterVersion env "Compiling network programs"
                   [(logfields_Debug, FBool true)] st) with
        | (Returned (_, Some err), st2) =>
            (Returned (Some err),
             add_log {| level := WarnLevel;
                        fields := [(logfields_Debug, FBool true)]
                                    ++ [(logfields_Params, FProg networkTcProg);
                                        (logrus_ErrorKey, FErr err)];
                        message := "Failed to compile" |} st2)
        | (Returned (_, None), st2) => (Returned None, st2)
        | (Panicked, st2) => (Panicked, st2)
        end
    end.
Proof.
  unfold compileNetwork, bind, call_CombinedOutput, afterVersion, stateDirs.
  change (cmd_CombinedOutput env compiler ["--version"] (events st))
    with (versionAnswer env st).
  cbn [fst snd].
  destruct (snd (versionAnswer env st)) as [e|]; [reflexivity|].
  unfold log_entry at 1. unfold modify. cbn [fst snd].
  destruct (compile env networkTcProg _ _) as [[[n [err|]]|] st2]; reflexivity.
Qed.

(** C6, on the code.  A [compileNetwork] session whose version query and
    file creation work and whose compiler run ends with an error [e] that
    is a cancellation ([errors.Is(e, context.Canceled)]): the session
    returns the wrapped error, which still is a cancellation, and [compile]
    logs nothing at error level for it; but the lines of the compiler's
    error stream are logged at warning level, and the session itself then
    logs "Failed to compile" at warning level, with no regard to the
    cancellation. *)
Theorem C6_cancelled_network_compile_is_warned
    (env : Env) (st : State) (pid : Z) (usage : option Z) (e : error)
    (out errb : list byte) :
  let scoped := [(logfields_Debug, FBool true)] in
  let st1 := afterVersion env "Compiling network programs" scoped st in
  let err := ErrWrap "Failed to compile bpf_network.o: " e in
  snd (versionAnswer env st) = None ->
  createAnswer env networkTcProg (stateDirs env) st1 = None ->
  runAnswer env networkTcProg (stateDirs env) st1 = Exited pid usage (Some e) out errb ->
  errors_Is e context_Canceled = true ->
  exists st',
    compileNetwork env st = (Returned (Some err), st')
    /\ errors_Is err context_Canceled = true
    /\ new_logs st1 st'
       = launchEntry env networkTcProg (stateDirs env) st1
           :: map warnEntry (Scanner_lines (io_LimitReader errb 1000000))
           ++ [ {| level := WarnLevel;
                   fields := scoped ++ [(logfields_Params, FProg networkTcProg);
                                        (logrus_ErrorKey, FErr err)];
                   message := "Failed to compile" |} ].
Proof.
  intros scoped st1 err Hv Hc Hr Hcancel.
  destruct (compile_run_failed env networkTcProg (stateDirs env) st1 _ _ _ _ _ Hc Hr)
    as (st2 & Heq & _ & _ & _ & _ & HL).
  destruct (afterCPU_frame env st1) as (Hl & _).
  rewrite Hcancel, Hr in HL. simpl in HL. rewrite Hl in HL.
  assert (Heqn : compileNetwork env st
                 = (Returned (Some err),
                    add_log {| level := WarnLevel;
                               fields := scoped ++ [(logfields_Params, FProg networkTcProg);
                                                    (logrus_ErrorKey, FErr err)];
                               message := "Failed to compile" |} st2)).
  { rewrite compileNetwork_unfold, Hv. fold scoped st1. rewrite Heq. reflexivity. }
  eexists. split; [exact Heqn|]. split.
  - apply errors_Is_wrap. exact Hcancel.
  - apply new_logs_app. cbn [logs add_log]. rewrite HL.
    rewrite <- !app_assoc. reflexivity.
Qed.

Lemma C6_witness :
  exists st',
    compileNetwork (constEnv (exampleConfig false false) [] allProbes None
                      ranCanceled ([], None)) (initState ∅)
    = (Returned (Some (ErrWrap "Failed to compile bpf_network.o: " context_Canceled)), st')
    /\ errors_Is (ErrWrap "Failed to compile bpf_network.o: " context_Canceled)
         context_Canceled = true
    /\ map (fun l => (level l, message l))
         (new_logs
            (afterVersion (constEnv (exampleConfig false false) [] allProbes None
                             ranCanceled ([], None))
               "Compiling network programs" [(logfields_Debug, FBool true)]
               (initState ∅))
            st')
       = [ (DebugLevel, "Launching compiler");
           (WarnLevel, "killed");
           (WarnLevel, "Failed to compile") ].
Proof.
  destruct (C6_cancelled_network_compile_is_warned
              (constEnv (exampleConfig false false) [] allProbes None
                 ranCanceled ([], None))
              (initState ∅) 4242 (Some 65536) context_Canceled []
              [x6b; x69; x6c; x6c; x65; x64; x0a]
              eq_refl eq_refl eq_refl eq_refl)
    as (st' & H1 & H2 & H3).
  exists st'. split; [exact H1|]. split; [exact H2|].
  rewrite H3. reflexivity.
Defined.

(** The overlay session warns about a cancelled compile in the same way,
    while the endpoint session logs only the compiler's error stream. *)
Example cancelled_overlay_compile_is_warned :
  List.filter (fun l => String.eqb (message l) "Failed to compile")
    (logs (snd (compileOverlay
                  (constEnv (exampleConfig false false) [] allProbes None
                     ranCanceled ([], None))
                  ["-DFOO=1"] (initState ∅))))
  = [ {| level := WarnLevel;
         fields := [ ("debug", FBool true);
                     ("params", FProg {| Source := "bpf_overlay.c"; Output := "bpf_overlay.o";
                                         progOutputType := outputObject;
                                         Options := ["-DFOO=1"] |});
                     ("error", FErr (ErrWrap "Failed to compile bpf_overlay.o: "
                                       context_Canceled)) ];
         message := "Failed to compile" |} ].
Proof. vm_compute. reflexivity. Qed.

Example cancelled_endpoint_compile_logs :
  map (fun l => (level l, message l))
    (logs (snd (compileDatapath
                  (constEnv (exampleConfig false false) [] allProbes None
                     ranCanceled ([], None))
                  exampleDirs false [] (initState ∅))))
  = [ (DebugLevel, "Compiling datapath");
      (DebugLevel, "Launching compiler");
      (WarnLevel, "killed") ].
Proof. vm_compute. reflexivity. Qed.

(** *** Debug programs *)

(** C10. In both debug triples the third program is the preprocessed
    source, and its output file name is its source file name: [bpf_lxc.c]
    for the endpoint, [bpf_host.c] for the host endpoint. *)
Theorem C10_preprocessed_output_named_as_source :
  (exists p, debugProgs !! 2%nat = Some p
             /\ progOutputType p = outputSource
             /\ Output p = Source p /\ Source p = "bpf_lxc.c")
  /\ (exists p, debugHostProgs !! 2%nat = Some p
                /\ progOutputType p = outputSource
                /\ Output p = Source p /\ Source p = "bpf_host.c").
Proof. split; eexists; (split; [reflexivity|]); repeat split. Qed.
